(** * HTLC simulator: a shallow embedding of [htlc_implementation.py]

    The development follows the Python module top-down:

    - [Bytes]      byte strings, 32-bit words and hexadecimal rendering;
    - [Sha256], [Ripemd160]  the two digests [hashlib] is asked for;
    - [Hashlib]    the part of the [hashlib] API the simulator calls;
    - [Python]     objects as attribute dictionaries, [print], exceptions;
    - [HTLCSimulator]  the class itself, method by method;
    - then the properties of the simulator.

    A Python [str] is represented by a Rocq [string] holding its UTF-8
    bytes, so that [str.encode()] is the conversion to a list of bytes.
    Integers are [Z]. *)

From Stdlib Require Import ZArith List Ascii String Lia Bool.
From Stdlib.Strings Require Import Byte.
From stdpp Require Import base option list strings gmap fin_maps pretty.

#[local] Open Scope string_scope.
#[local] Open Scope Z_scope.

(* ===================================================================== *)
(** ** Byte strings and machine words *)
(* ===================================================================== *)

Module Bytes.

(** Python's [bytes]. *)
Abbreviation bytes := (list byte).

Definition Z_of_byte (b : byte) : Z := Z.of_N (Byte.to_N b).

Definition byte_of_Z (z : Z) : byte :=
  byte_of_ascii (ascii_of_N (Z.to_N (z mod 256))).

(** [str.encode()]: the UTF-8 bytes of the text. *)
Definition encode (s : string) : bytes := list_byte_of_string s.

(** 32-bit unsigned arithmetic, wrap-around written out. *)
Definition wrap32 (x : Z) : Z := x mod 2 ^ 32.
Definition add32 (x y : Z) : Z := wrap32 (x + y).
Definition not32 (x : Z) : Z := Z.lxor x 0xFFFFFFFF.
Definition shr32 (n x : Z) : Z := Z.shiftr x n.
Definition rotl32 (n x : Z) : Z :=
  Z.lor (wrap32 (Z.shiftl x n)) (Z.shiftr x (32 - n)).
Definition rotr32 (n x : Z) : Z := rotl32 (32 - n) x.

(** Big- and little-endian readings of byte groups. *)
Definition be_word (bs : list Z) : Z :=
  fold_left (fun acc b => acc * 256 + b) bs 0.
Definition le_word (bs : list Z) : Z := be_word (rev bs).

Fixpoint le_bytes (n : nat) (x : Z) : list Z :=
  match n with
  | O => []
  | S n' => x mod 256 :: le_bytes n' (x / 256)
  end.
Definition be_bytes (n : nat) (x : Z) : list Z := rev (le_bytes n x).

(** Cut a list into groups of [n] elements; [k] bounds the number of
    groups. *)
Fixpoint chunks {A} (k n : nat) (l : list A) : list (list A) :=
  match k with
  | O => []
  | S k' =>
      match l with
      | [] => []
      | _ => firstn n l :: chunks k' n (skipn n l)
      end
  end.

Definition blocks_of (word : list Z -> Z) (msg : list Z) : list (list Z) :=
  map (fun blk => map word (chunks 16 4 blk))
      (chunks (S (length msg)) 64 msg).

(** Merkle–Damgård padding shared by both digests: a [0x80] byte, zeros
    up to 56 modulo 64, then the bit length on eight bytes. *)
Definition md_pad (len_bytes : nat -> Z -> list Z) (msg : list Z) : list Z :=
  let n := Z.of_nat (length msg) in
  msg ++ 0x80 :: repeat 0 (Z.to_nat ((55 - n) mod 64))
      ++ len_bytes 8%nat (8 * n).

(** Lower-case hexadecimal, as [hexdigest()] and [bytes.hex()] print it. *)
Definition hex_digit (n : Z) : ascii :=
  if n <? 10 then ascii_of_N (Z.to_N (48 + n))
  else ascii_of_N (Z.to_N (87 + n)).

Definition hex_byte (b : byte) (rest : string) : string :=
  let z := Z_of_byte b in
  String (hex_digit (z / 16)) (String (hex_digit (z mod 16)) rest).

Definition hex (bs : bytes) : string := fold_right hex_byte "" bs.

(** Reading hexadecimal back; used to show that [hex] loses nothing. *)
Definition unhex_digit (c : ascii) : Z :=
  let n := Z.of_N (N_of_ascii c) in
  if n <? 58 then n - 48 else n - 87.

Fixpoint unhex (s : string) : bytes :=
  match s with
  | String hi (String lo rest) =>
      byte_of_Z (16 * unhex_digit hi + unhex_digit lo) :: unhex rest
  | _ => []
  end.

End Bytes.
Import Bytes.

(* ===================================================================== *)
(** ** SHA-256 (FIPS 180-4) *)
(* ===================================================================== *)

Module Sha256.

(** The constants are defined as the standard defines them: the first 32
    bits of the fractional parts of the cube roots (for [K]) and of the
    square roots (for [H0]) of the first primes. *)
Definition is_prime (n : Z) : bool :=
  forallb (fun d => negb (n mod d =? 0))
          (map Z.of_nat (seq 2 (Z.to_nat n - 2))).

Definition primes_up_to (n : nat) : list Z :=
  filter is_prime (map Z.of_nat (seq 2 (n - 1))).

(** Integer cube root of [n] by bisection on the bits of the root, from
    bit [bits - 1] down. *)
Fixpoint cube_root (bits : nat) (n r : Z) : Z :=
  match bits with
  | O => r
  | S b =>
      let c := r + 2 ^ Z.of_nat b in
      cube_root b n (if c * c * c <=? n then c else r)
  end.

Definition frac_cube_root (p : Z) : Z :=
  wrap32 (cube_root 40 (p * 2 ^ 96) 0).
Definition frac_square_root (p : Z) : Z :=
  wrap32 (Z.sqrt (p * 2 ^ 64)).

Definition K : list Z :=
  Eval vm_compute in map frac_cube_root (primes_up_to 311).

Definition H0 : list Z :=
  Eval vm_compute in map frac_square_root (primes_up_to 19).

Definition Ch (x y z : Z) : Z :=
  Z.lxor (Z.land x y) (Z.land (not32 x) z).
Definition Maj (x y z : Z) : Z :=
  Z.lxor (Z.lxor (Z.land x y) (Z.land x z)) (Z.land y z).
Definition Sigma0 (x : Z) : Z :=
  Z.lxor (Z.lxor (rotr32 2 x) (rotr32 13 x)) (rotr32 22 x).
Definition Sigma1 (x : Z) : Z :=
  Z.lxor (Z.lxor (rotr32 6 x) (rotr32 11 x)) (rotr32 25 x).
Definition sigma0 (x : Z) : Z :=
  Z.lxor (Z.lxor (rotr32 7 x) (rotr32 18 x)) (shr32 3 x).
Definition sigma1 (x : Z) : Z :=
  Z.lxor (Z.lxor (rotr32 17 x) (rotr32 19 x)) (shr32 10 x).

(** Message schedule; [w] holds the words computed so far, newest
    first, so that [W(t-i)] is at index [i-1]. *)
Fixpoint schedule (n : nat) (w : list Z) : list Z :=
  match n with
  | O => rev w
  | S n' =>
      let wt := add32 (add32 (sigma1 (nth 1 w 0)) (nth 6 w 0))
                      (add32 (sigma0 (nth 14 w 0)) (nth 15 w 0)) in
      schedule n' (wt :: w)
  end.

Definition round (st : list Z) (kw : Z * Z) : list Z :=
  match st with
  | [a; b; c; d; e; f; g; h] =>
      let t1 := add32 (add32 (add32 h (Sigma1 e)) (Ch e f g))
                      (add32 (fst kw) (snd kw)) in
      let t2 := add32 (Sigma0 a) (Maj a b c) in
      [add32 t1 t2; a; b; c; add32 d t1; e; f; g]
  | _ => st
  end.

Definition compress (h : list Z) (block : list Z) : list Z :=
  let w := schedule 48 (rev block) in
  let st := fold_left round (combine K w) h in
  map (fun p => add32 (fst p) (snd p)) (combine h st).

Definition digest (msg : bytes) : bytes :=
  let m := md_pad be_bytes (map Z_of_byte msg) in
  let h := fold_left compress (blocks_of be_word m) H0 in
  map byte_of_Z (concat (map (be_bytes 4) h)).

End Sha256.

(* ===================================================================== *)
(** ** RIPEMD-160 *)
(* ===================================================================== *)

Module Ripemd160.

Definition H0 : list Z :=
  [ 0x67452301; 0xEFCDAB89; 0x98BADCFE; 0x10325476; 0xC3D2E1F0 ].

(** The five boolean functions, selected by the round group [j / 16]. *)
Definition f (group : nat) (x y z : Z) : Z :=
  match group with
  | 0%nat => Z.lxor (Z.lxor x y) z
  | 1%nat => Z.lor (Z.land x y) (Z.land (not32 x) z)
  | 2%nat => Z.lxor (Z.lor x (not32 y)) z
  | 3%nat => Z.lor (Z.land x z) (Z.land y (not32 z))
  | _ => Z.lxor x (Z.lor y (not32 z))
  end.

Definition KL : list Z :=
  [ 0x00000000; 0x5A827999; 0x6ED9EBA1; 0x8F1BBCDC; 0xA953FD4E ].
Definition KR : list Z :=
  [ 0x50A28BE6; 0x5C4DD124; 0x6D703EF3; 0x7A6D76E9; 0x00000000 ].

(** Message word selection and rotation amounts, left and right lines. *)
Definition RL : list nat :=
  [ 0; 1; 2; 3; 4; 5; 6; 7; 8; 9; 10; 11; 12; 13; 14; 15;
    7; 4; 13; 1; 10; 6; 15; 3; 12; 0; 9; 5; 2; 14; 11; 8;
    3; 10; 14; 4; 9; 15; 8; 1; 2; 7; 0; 6; 13; 11; 5; 12;
    1; 9; 11; 10; 0; 8; 12; 4; 13; 3; 7; 15; 14; 5; 6; 2;
    4; 0; 5; 9; 7; 12; 2; 10; 14; 1; 3; 8; 11; 6; 15; 13 ]%nat.
Definition RR : list nat :=
  [ 5; 14; 7; 0; 9; 2; 11; 4; 13; 6; 15; 8; 1; 10; 3; 12;
    6; 11; 3; 7; 0; 13; 5; 10; 14; 15; 8; 12; 4; 9; 1; 2;
    15; 5; 1; 3; 7; 14; 6; 9; 11; 8; 12; 2; 10; 0; 4; 13;
    8; 6; 4; 1; 3; 11; 15; 0; 5; 12; 2; 13; 9; 7; 10; 14;
    12; 15; 10; 4; 1; 5; 8; 7; 6; 2; 13; 14; 0; 3; 9; 11 ]%nat.
Definition SL : list Z :=
  [ 11; 14; 15; 12; 5; 8; 7; 9; 11; 13; 14; 15; 6; 7; 9; 8;
    7; 6; 8; 13; 11; 9; 7; 15; 7; 12; 15; 9; 11; 7; 13; 12;
    11; 13; 6; 7; 14; 9; 13; 15; 14; 8; 13; 6; 5; 12; 7; 5;
    11; 12; 14; 15; 14; 15; 9; 8; 9; 14; 5; 6; 8; 6; 5; 12;
    9; 15; 5; 11; 6; 8; 13; 12; 5; 12; 13; 14; 11; 8; 5; 6 ].
Definition SR : list Z :=
  [ 8; 9; 9; 11; 13; 15; 15; 5; 7; 7; 8; 11; 14; 14; 12; 6;
    9; 13; 15; 7; 12; 8; 9; 11; 7; 7; 12; 7; 6; 15; 13; 11;
    9; 7; 15; 11; 8; 6; 6; 14; 12; 13; 5; 14; 13; 13; 7; 5;
    15; 5; 8; 11; 14; 14; 6; 14; 6; 9; 12; 9; 12; 5; 15; 8;
    8; 5; 12; 9; 12; 5; 14; 6; 8; 13; 6; 5; 15; 13; 11; 11 ].

(** One step of a line.  [flip] is [false] on the left line and [true]
    on the right one, which runs the boolean functions backwards. *)
Definition step (flip : bool) (ks : list Z) (rs : list nat) (ss : list Z)
    (x : list Z) (st : list Z) (j : nat) : list Z :=
  match st with
  | [a; b; c; d; e] =>
      let g := (j / 16)%nat in
      let fj := f (if flip then (4 - g)%nat else g) b c d in
      let t := add32 (add32 a fj)
                     (add32 (nth (nth j rs 0%nat) x 0) (nth g ks 0)) in
      [e; add32 (rotl32 (nth j ss 0) t) e; b; rotl32 10 c; d]
  | _ => st
  end.

Definition compress (h : list Z) (x : list Z) : list Z :=
  let l := fold_left (step false KL RL SL x) (seq 0 80) h in
  let r := fold_left (step true KR RR SR x) (seq 0 80) h in
  match h, l, r with
  | [h0; h1; h2; h3; h4], [al; bl; cl; dl; el], [ar; br; cr; dr; er] =>
      [ add32 (add32 h1 cl) dr; add32 (add32 h2 dl) er;
        add32 (add32 h3 el) ar; add32 (add32 h4 al) br;
        add32 (add32 h0 bl) cr ]
  | _, _, _ => h
  end.

Definition digest (msg : bytes) : bytes :=
  let m := md_pad le_bytes (map Z_of_byte msg) in
  let h := fold_left compress (blocks_of le_word m) H0 in
  map byte_of_Z (concat (map (le_bytes 4) h)).

End Ripemd160.

(* ===================================================================== *)
(** ** The part of [hashlib] the simulator uses *)
(* ===================================================================== *)

Module Hashlib.

(** The digest functions [hashlib] delegates to.  The simulator is
    verified against any pair of them; [openssl] below supplies the
    real algorithms. *)
Class Digests := {
  sha256_digest : bytes -> bytes;
  ripemd160_digest : bytes -> bytes
}.

Inductive algorithm := SHA256 | RIPEMD160.

(** A hash object: the algorithm it was created for and the data fed
    to it so far. *)
Record HASH := { name : algorithm; buffer : bytes }.

(** [hashlib.new(name)] *)
Definition new (alg : algorithm) : HASH :=
  {| name := alg; buffer := [] |}.

(** [h.update(data)] *)
Definition update (h : HASH) (data : bytes) : HASH :=
  {| name := name h; buffer := buffer h ++ data |}.

(** [hashlib.sha256(data)] *)
Definition sha256 (data : bytes) : HASH := update (new SHA256) data.

(** [h.digest()] and [h.hexdigest()] *)
Definition digest `{Digests} (h : HASH) : bytes :=
  match name h with
  | SHA256 => sha256_digest (buffer h)
  | RIPEMD160 => ripemd160_digest (buffer h)
  end.

Definition hexdigest `{Digests} (h : HASH) : string := hex (digest h).

Definition openssl : Digests :=
  {| sha256_digest := Sha256.digest; ripemd160_digest := Ripemd160.digest |}.

End Hashlib.
Import Hashlib.

(* ===================================================================== *)
(** ** A small Python runtime *)
(* ===================================================================== *)

Module Python.

(** Values stored in instance attributes. *)
Inductive value :=
| VStr (s : string)
| VInt (z : Z).

Inductive exn :=
| AttributeError (attr : string)
| TypeError (msg : string).

Inductive outcome (A : Type) :=
| Returned (a : A)
| Raised (e : exn).
Arguments Returned {A} a.
Arguments Raised {A} e.

(** What a method of an object can see and change: the instance
    dictionary of [self], and the text written to standard output (one
    entry per [print] call, without the final newline). *)
Record world := {
  self_dict : gmap string value;
  stdout : list string
}.

Definition Py (A : Type) : Type := world -> outcome A * world.

Definition ret {A} (a : A) : Py A := fun w => (Returned a, w).

Definition bind {A B} (c : Py A) (k : A -> Py B) : Py B :=
  fun w =>
    match c w with
    | (Returned a, w') => k a w'
    | (Raised e, w') => (Raised e, w')
    end.

(** [self.attr] *)
Definition getattr (attr : string) : Py value :=
  fun w =>
    match self_dict w !! attr with
    | Some v => (Returned v, w)
    | None => (Raised (AttributeError attr), w)
    end.

(** [self.attr = v] *)
Definition setattr (attr : string) (v : value) : Py unit :=
  fun w =>
    (Returned tt,
     {| self_dict := <[attr := v]> (self_dict w); stdout := stdout w |}).

(** [print(s)] *)
Definition print (s : string) : Py unit :=
  fun w =>
    (Returned tt,
     {| self_dict := self_dict w; stdout := stdout w ++ [s] |}).

(** [==] on values: a [str] never equals an [int]. *)
Definition py_eq (a b : value) : bool :=
  match a, b with
  | VStr s, VStr t => String.eqb s t
  | VInt x, VInt y => Z.eqb x y
  | _, _ => false
  end.

(** [str(x)], as an f-string field renders it. *)
Definition str_of_bool (b : bool) : string :=
  if b then "True" else "False".
Definition str_of_int (z : Z) : string := pretty z.
Definition str (v : value) : string :=
  match v with
  | VStr s => s
  | VInt z => str_of_int z
  end.

(** Calling a value: a [str] or an [int] is not callable. *)
Definition type_name (v : value) : string :=
  match v with
  | VStr _ => "str"
  | VInt _ => "int"
  end.
Definition not_callable (v : value) : exn :=
  TypeError ("'" +:+ type_name v +:+ "' object is not callable").

(** The text on standard output: [print] ends each of its texts with a
    newline.  The lines of a text are counted by its newlines. *)
Definition written (out : list string) : string :=
  fold_right (fun s rest => s +:+ String (ascii_of_nat 10) rest) "" out.

Fixpoint count_lines (s : string) : nat :=
  match s with
  | EmptyString => 0
  | String c s' =>
      ((if Ascii.eqb c (ascii_of_nat 10) then 1 else 0) + count_lines s')%nat
  end.

(** [s * n] *)
Definition str_mul (s : string) (n : nat) : string :=
  fold_right String.append "" (repeat s n).

(** The newline character of ["\n"]. *)
Definition nl : string := String (ascii_of_nat 10) "".

End Python.
Import Python.

Declare Scope py_scope.
Delimit Scope py_scope with py.
Notation "x <- c ;; k" := (bind c (fun x => k))
  (at level 100, c at next level, right associativity) : py_scope.
Notation "c ;; k" := (bind c (fun _ => k))
  (at level 100, right associativity) : py_scope.

(* ===================================================================== *)
(** ** The script templates *)
(* ===================================================================== *)

(** A triple-quoted f-string that begins and ends with a line break: the
    lines, each preceded by a newline, and a final newline. *)
Definition f_string_lines (ls : list string) : string :=
  String.concat nl ("" :: ls ++ [""])%list.

Definition create_htlc_script
    (secret_hash alice_pubkey_hash bob_pubkey_hash : string)
    (timeout_blocks : Z) : string :=
  let script := f_string_lines
    [ "# HTLC Script with Two Conditional Paths";
      "# ============================================";
      "";
      "OP_IF";
      "    # Alice's claiming path (with secret preimage)";
      "    # Requires: <signature> <pubkey> <secret> 1";
      "    OP_SHA256                    # Hash the secret";
      "    <" +:+ secret_hash +:+ ">              # Push expected secret hash";
      "    OP_EQUALVERIFY               # Verify secret matches";
      "    OP_DUP                       # Duplicate Alice's pubkey";
      "    OP_HASH160                   # Hash it";
      "    <" +:+ alice_pubkey_hash +:+ ">        # Push Alice's pubkey hash";
      "    OP_EQUALVERIFY               # Verify pubkey matches";
      "    OP_CHECKSIG                  # Verify signature";
      "OP_ELSE";
      "    # Bob's refund path (after timeout)";
      "    # Requires: <signature> <pubkey> 0";
      "    <" +:+ str_of_int timeout_blocks +:+ ">           # Push timeout value";
      "    OP_CHECKLOCKTIMEVERIFY       # Verify timeout has passed";
      "    OP_DROP                      # Remove timeout from stack";
      "    OP_DUP                       # Duplicate Bob's pubkey";
      "    OP_HASH160                   # Hash it";
      "    <" +:+ bob_pubkey_hash +:+ ">          # Push Bob's pubkey hash";
      "    OP_EQUALVERIFY               # Verify pubkey matches";
      "    OP_CHECKSIG                  # Verify signature";
      "OP_ENDIF" ] in
  script.

Definition create_alice_claiming_script
    (signature alice_pubkey secret_preimage : string) : string :=
  let script_sig := f_string_lines
    [ "# Alice's Claiming Script (scriptSig)";
      "# ====================================";
      "<" +:+ signature +:+ ">          # Alice's signature";
      "<" +:+ alice_pubkey +:+ ">       # Alice's public key";
      "<" +:+ secret_preimage +:+ ">    # The secret preimage";
      "1                      # OP_TRUE - takes the IF branch" ] in
  script_sig.

Definition create_bob_refund_script (signature bob_pubkey : string) : string :=
  let script_sig := f_string_lines
    [ "# Bob's Refund Script (scriptSig)";
      "# =================================";
      "<" +:+ signature +:+ ">          # Bob's signature";
      "<" +:+ bob_pubkey +:+ ">         # Bob's public key";
      "0                      # OP_FALSE - takes the ELSE branch" ] in
  script_sig.

(** A text that does not contain the closing bracket [>] of a script
    field. *)
Fixpoint no_closing_bracket (s : string) : bool :=
  match s with
  | EmptyString => true
  | String c s' => negb (Ascii.eqb c ">") && no_closing_bracket s'
  end.

(* ===================================================================== *)
(** ** [class HTLCSimulator] *)
(* ===================================================================== *)

Section HTLCSimulator.

Context `{Digests}.

#[local] Open Scope py_scope.

(** [HTLCSimulator.hash160], a static method. *)
Definition hash160 (data : string) : string :=
  let sha256_hash := digest (sha256 (encode data)) in
  let ripemd160 := new RIPEMD160 in
  let ripemd160 := update ripemd160 sha256_hash in
  hexdigest ripemd160.

(** [self.hash160(data)]: the attribute is looked up on the instance
    first and then on the class, where it is the static method.  A string
    or an integer stored on the instance under that name shadows the
    method, and calling it raises [TypeError]. *)
Definition self_hash160 (data : string) : Py string :=
  fun w =>
    match self_dict w !! "hash160" with
    | Some v => (Raised (not_callable v), w)
    | None => (Returned (hash160 data), w)
    end.

Definition __init__ (secret alice_pubkey bob_pubkey : string) : Py unit :=
  setattr "secret" (VStr secret) ;;
  setattr "secret_hash" (VStr (hexdigest (sha256 (encode secret)))) ;;
  setattr "alice_pubkey" (VStr alice_pubkey) ;;
  setattr "bob_pubkey" (VStr bob_pubkey) ;;
  alice_pubkey_hash <- self_hash160 alice_pubkey ;;
  setattr "alice_pubkey_hash" (VStr alice_pubkey_hash) ;;
  bob_pubkey_hash <- self_hash160 bob_pubkey ;;
  setattr "bob_pubkey_hash" (VStr bob_pubkey_hash) ;;
  setattr "current_block" (VInt 0).

Definition validate_alice_claim
    (provided_secret provided_pubkey : string) (block_height : Z)
    : Py bool :=
  print (nl +:+ str_mul "=" 60) ;;
  print "VALIDATING ALICE'S CLAIM" ;;
  print (str_mul "=" 60) ;;
  (* Check secret *)
  let provided_hash := hexdigest (sha256 (encode provided_secret)) in
  self_secret_hash <- getattr "secret_hash" ;;
  let secret_valid := py_eq (VStr provided_hash) self_secret_hash in
  print ("Secret Hash Match: " +:+ str_of_bool secret_valid) ;;
  expected <- getattr "secret_hash" ;;
  print ("  Expected: " +:+ str expected) ;;
  print ("  Provided: " +:+ provided_hash) ;;
  (* Check pubkey *)
  self_alice_pubkey <- getattr "alice_pubkey" ;;
  let pubkey_valid := py_eq (VStr provided_pubkey) self_alice_pubkey in
  provided_pubkey_hash <- self_hash160 provided_pubkey ;;
  self_alice_pubkey_hash <- getattr "alice_pubkey_hash" ;;
  let pubkey_hash_valid :=
    py_eq (VStr provided_pubkey_hash) self_alice_pubkey_hash in
  print (nl +:+ "Public Key Match: " +:+ str_of_bool pubkey_valid) ;;
  print ("Public Key Hash Match: " +:+ str_of_bool pubkey_hash_valid) ;;
  (* No timeout check for Alice's path *)
  print (nl +:+ "Block Height: " +:+ str_of_int block_height
            +:+ " (no timeout restriction for Alice)") ;;
  let success := secret_valid && pubkey_hash_valid in
  print (nl +:+ (if success then "✓ CLAIM SUCCESSFUL" else "✗ CLAIM FAILED")) ;;
  print (str_mul "=" 60) ;;
  ret success.

Definition validate_bob_refund
    (provided_pubkey : string) (block_height timeout_blocks : Z)
    : Py bool :=
  print (nl +:+ str_mul "=" 60) ;;
  print "VALIDATING BOB'S REFUND" ;;
  print (str_mul "=" 60) ;;
  (* Check timeout *)
  let timeout_passed := block_height >=? timeout_blocks in
  print ("Timeout Check: " +:+ str_of_bool timeout_passed) ;;
  print ("  Current Block: " +:+ str_of_int block_height) ;;
  print ("  Timeout Block: " +:+ str_of_int timeout_blocks) ;;
  print ("  Status: " +:+ (if timeout_passed then "PASSED" else "NOT YET")) ;;
  (* Check pubkey *)
  self_bob_pubkey <- getattr "bob_pubkey" ;;
  let pubkey_valid := py_eq (VStr provided_pubkey) self_bob_pubkey in
  provided_pubkey_hash <- self_hash160 provided_pubkey ;;
  self_bob_pubkey_hash <- getattr "bob_pubkey_hash" ;;
  let pubkey_hash_valid :=
    py_eq (VStr provided_pubkey_hash) self_bob_pubkey_hash in
  print (nl +:+ "Public Key Match: " +:+ str_of_bool pubkey_valid) ;;
  print ("Public Key Hash Match: " +:+ str_of_bool pubkey_hash_valid) ;;
  let success := timeout_passed && pubkey_hash_valid in
  print (nl +:+ (if success then "✓ REFUND SUCCESSFUL" else "✗ REFUND FAILED")) ;;
  print (str_mul "=" 60) ;;
  ret success.

(** [HTLCSimulator(secret, alice_pubkey, bob_pubkey)]: a fresh object
    with an empty instance dictionary, initialised by [__init__]. *)
Definition blank (out : list string) : world :=
  {| self_dict := ∅; stdout := out |}.

Definition HTLCSimulator (secret alice_pubkey bob_pubkey : string)
    (out : list string) : outcome unit * world :=
  __init__ secret alice_pubkey bob_pubkey (blank out).

(** The value a call returns, and the world it leaves behind. *)
Definition result {A} (r : outcome A * world) : outcome A := fst r.
Definition after {A} (r : outcome A * world) : world := snd r.

(** The object [HTLCSimulator(secret, alice_pubkey, bob_pubkey)] evaluates
    to, in a process whose standard output so far is [out]. *)
Definition constructed (secret alice_pubkey bob_pubkey : string)
    (out : list string) : world :=
  after (HTLCSimulator secret alice_pubkey bob_pubkey out).

(** *** Vocabulary of the statements below *)

(** The secret commitment, as the constructor computes it. *)
Definition secret_commitment (secret : string) : string :=
  hexdigest (sha256 (encode secret)).

(** The instance dictionary [__init__] builds. *)
Definition fields (secret alice_pubkey bob_pubkey : string)
    : gmap string value :=
  <["current_block" := VInt 0]>
  (<["bob_pubkey_hash" := VStr (hash160 bob_pubkey)]>
  (<["alice_pubkey_hash" := VStr (hash160 alice_pubkey)]>
  (<["bob_pubkey" := VStr bob_pubkey]>
  (<["alice_pubkey" := VStr alice_pubkey]>
  (<["secret_hash" := VStr (secret_commitment secret)]>
  (<["secret" := VStr secret]> ∅)))))).

(** The text [validate_alice_claim] writes, given the attribute values
    it read. *)
Definition alice_report (provided_secret provided_pubkey : string)
    (block_height : Z) (sh ak ah : value) : list string :=
  let provided_hash := hexdigest (sha256 (encode provided_secret)) in
  let secret_valid := py_eq (VStr provided_hash) sh in
  let pubkey_valid := py_eq (VStr provided_pubkey) ak in
  let pubkey_hash_valid := py_eq (VStr (hash160 provided_pubkey)) ah in
  [ nl +:+ str_mul "=" 60;
    "VALIDATING ALICE'S CLAIM";
    str_mul "=" 60;
    "Secret Hash Match: " +:+ str_of_bool secret_valid;
    "  Expected: " +:+ str sh;
    "  Provided: " +:+ provided_hash;
    nl +:+ "Public Key Match: " +:+ str_of_bool pubkey_valid;
    "Public Key Hash Match: " +:+ str_of_bool pubkey_hash_valid;
    nl +:+ "Block Height: " +:+ str_of_int block_height
       +:+ " (no timeout restriction for Alice)";
    nl +:+ (if secret_valid && pubkey_hash_valid
            then "✓ CLAIM SUCCESSFUL" else "✗ CLAIM FAILED");
    str_mul "=" 60 ].

(** The text [validate_bob_refund] writes. *)
Definition bob_report (provided_pubkey : string)
    (block_height timeout_blocks : Z) (bk bh : value) : list string :=
  let timeout_passed := block_height >=? timeout_blocks in
  let pubkey_valid := py_eq (VStr provided_pubkey) bk in
  let pubkey_hash_valid := py_eq (VStr (hash160 provided_pubkey)) bh in
  [ nl +:+ str_mul "=" 60;
    "VALIDATING BOB'S REFUND";
    str_mul "=" 60;
    "Timeout Check: " +:+ str_of_bool timeout_passed;
    "  Current Block: " +:+ str_of_int block_height;
    "  Timeout Block: " +:+ str_of_int timeout_blocks;
    "  Status: " +:+ (if timeout_passed then "PASSED" else "NOT YET");
    nl +:+ "Public Key Match: " +:+ str_of_bool pubkey_valid;
    "Public Key Hash Match: " +:+ str_of_bool pubkey_hash_valid;
    nl +:+ (if timeout_passed && pubkey_hash_valid
            then "✓ REFUND SUCCESSFUL" else "✗ REFUND FAILED");
    str_mul "=" 60 ].

(** The two digests as the specification words them, on bytes:
    [H(x) = SHA256(x)] and [H160(x) = RIPEMD160(SHA256(x))]. *)
Definition spec_H (x : bytes) : bytes := sha256_digest x.
Definition spec_H160 (x : bytes) : bytes :=
  ripemd160_digest (sha256_digest x).

(** The sub-checks as the specification words them: secret match and
    identity match compare commitments, the timeout check compares
    heights. *)
Definition secret_match (candidate secret : string) : bool :=
  String.eqb (secret_commitment candidate) (secret_commitment secret).
Definition identity_match (candidate identity : string) : bool :=
  String.eqb (hash160 candidate) (hash160 identity).
Definition timeout_elapsed (height timeout : Z) : bool :=
  height >=? timeout.

(** *** Sequences of evaluations *)

(** One evaluation a caller asks of a simulator. *)
Inductive call :=
| Claim (provided_secret provided_pubkey : string) (block_height : Z)
| Refund (provided_pubkey : string) (block_height timeout_blocks : Z).

(** [simulator.method(...)], as a caller writes it: the method is looked
    up on the instance first, so a string or an integer stored there
    under the method's name shadows it, and calling that raises. *)
Definition call_method {A} (name : string) (body : Py A) : Py A :=
  fun w =>
    match self_dict w !! name with
    | Some v => (Raised (not_callable v), w)
    | None => body w
    end.

Definition run_call (c : call) : Py bool :=
  match c with
  | Claim ps pk h =>
      call_method "validate_alice_claim" (validate_alice_claim ps pk h)
  | Refund pk h t =>
      call_method "validate_bob_refund" (validate_bob_refund pk h t)
  end.

(** Evaluations made one after the other on the same object, as
    [run_tests] makes them; an exception ends the sequence. *)
Fixpoint run_calls (cs : list call) (w : world)
    : list (outcome bool) * world :=
  match cs with
  | [] => ([], w)
  | c :: cs' =>
      match run_call c w with
      | (Returned b, w') =>
          let (rs, w'') := run_calls cs' w' in (Returned b :: rs, w'')
      | (Raised e, w') => ([Raised e], w')
      end
  end.

(** What a call is expected to return on a simulator built from
    [secret], [alice], [bob]. *)
Definition expected (secret alice bob : string) (c : call) : bool :=
  match c with
  | Claim ps pk _ => secret_match ps secret && identity_match pk alice
  | Refund pk h t => timeout_elapsed h t && identity_match pk bob
  end.

(** The lines of text one call writes on a constructed simulator. *)
Definition call_lines (c : call) : nat :=
  match c with
  | Claim _ _ _ => 15
  | Refund _ _ _ => 14
  end.

(** The locking script [run_tests] generates for a simulator: the
    template filled with the simulator's three commitments. *)
Definition locking_script (secret alice bob : string) (timeout_blocks : Z)
    : string :=
  create_htlc_script (secret_commitment secret) (hash160 alice) (hash160 bob)
                     timeout_blocks.

End HTLCSimulator.

(** The simulator of [tests/test_htlc.py], with the real digests. *)
Definition test_sim : world :=
  @constructed openssl "test_secret_123" "alice_key" "bob_key" [].

(** The simulator of [run_tests]. *)
Definition demo_sim : world :=
  @constructed openssl
    "super_secret_preimage_12345" "alice_public_key_xyz" "bob_public_key_abc"
    [].

(** Digests weak enough to collide on purpose: SHA256 is replaced by
    "keep the first byte" and RIPEMD160 by the identity, so that two keys
    with the same first letter have the same [hash160]. *)
Definition first_byte_digests : Digests :=
  {| sha256_digest := firstn 1; ripemd160_digest := fun bs => bs |}.

(** Runs a method body symbolically: unfolds the monad and splits on each
    attribute lookup. *)
Ltac run_method :=
  unfold validate_alice_claim, validate_bob_refund, __init__, self_hash160,
         bind, print, getattr, setattr, ret, result, after;
  repeat (cbn [self_dict stdout fst snd];
          match goal with
          | Hk : ?d !! ?k = _ |- context [?d !! ?k] => rewrite Hk
          | |- context [match ?d !! ?k with _ => _ end] =>
              let E := fresh "E" in destruct (d !! k) eqn:E
          end);
  cbn [self_dict stdout fst snd].

(* ===================================================================== *)
(** ** The digests against [hashlib]'s output *)
(* ===================================================================== *)

Example sha256_constants :
  length Sha256.K = 64%nat
  /\ hd 0 Sha256.K = 0x428a2f98 /\ List.last Sha256.K 0 = 0xc67178f2
  /\ length Sha256.H0 = 8%nat
  /\ hd 0 Sha256.H0 = 0x6a09e667 /\ List.last Sha256.H0 0 = 0x5be0cd19.
Proof. vm_compute. repeat split. Qed.

Example sha256_empty :
  hex (Sha256.digest (encode "")) =
  "e3b0c44298fc1c149afbf4c8996fb92427ae41e4649b934ca495991b7852b855".
Proof. vm_compute. reflexivity. Qed.

Example sha256_abc :
  hex (Sha256.digest (encode "abc")) =
  "ba7816bf8f01cfea414140de5dae2223b00361a396177a9cb410ff61f20015ad".
Proof. vm_compute. reflexivity. Qed.

Example sha256_two_blocks :
  hex (Sha256.digest (repeat "a"%byte 119)) =
  "31eba51c313a5c08226adf18d4a359cfdfd8d2e816b13f4af952f7ea6584dcfb".
Proof. vm_compute. reflexivity. Qed.

Example ripemd160_empty :
  hex (Ripemd160.digest (encode "")) =
  "9c1185a5c5e9fc54612808977ee8f548b2258d31".
Proof. vm_compute. reflexivity. Qed.

Example ripemd160_abc :
  hex (Ripemd160.digest (encode "abc")) =
  "8eb208f7e05d987a9b044a8e98c6b087f15a0bfc".
Proof. vm_compute. reflexivity. Qed.

Example ripemd160_two_blocks :
  hex (Ripemd160.digest (repeat "a"%byte 119)) =
  "23e398ff2bac815aa1bbb57ca2a669c841872919".
Proof. vm_compute. reflexivity. Qed.

(* ===================================================================== *)
(** ** Facts about the encodings *)
(* ===================================================================== *)

Lemma unhex_hex_byte (b : byte) (rest : string) :
  unhex (hex_byte b rest) = b :: unhex rest.
Proof. destruct b; reflexivity. Qed.

Lemma unhex_hex (bs : bytes) : unhex (hex bs) = bs.
Proof.
  induction bs as [|b bs IH]; [reflexivity|].
  change (hex (b :: bs)) with (hex_byte b (hex bs)).
  rewrite unhex_hex_byte, IH. reflexivity.
Qed.

(** Two digests printed alike are the same digest. *)
Lemma hex_inj (a b : bytes) : hex a = hex b -> a = b.
Proof.
  intros E. rewrite <- (unhex_hex a), <- (unhex_hex b), E. reflexivity.
Qed.

Lemma hex_neq (a b : bytes) : String.eqb (hex a) (hex b) = false -> a <> b.
Proof. intros E ->. rewrite String.eqb_refl in E. discriminate E. Qed.

(** Counting the lines of a written text. *)
Lemma count_lines_app (a b : string) :
  count_lines (a +:+ b) = (count_lines a + count_lines b)%nat.
Proof.
  induction a as [|x a IH]; [reflexivity|].
  change (count_lines (String x (a +:+ b))
          = (count_lines (String x a) + count_lines b)%nat).
  cbn [count_lines]. rewrite IH. lia.
Qed.

Lemma written_app (a b : list string) :
  written (a ++ b) = written a +:+ written b.
Proof.
  induction a as [|x a IH]; [reflexivity|].
  change (x +:+ String (ascii_of_nat 10) (written (a ++ b))
          = (x +:+ String (ascii_of_nat 10) (written a)) +:+ written b).
  rewrite IH. clear IH. induction x as [|c x IHx]; [reflexivity|].
  change (String c (x +:+ String (ascii_of_nat 10) (written a +:+ written b))
          = String c ((x +:+ String (ascii_of_nat 10) (written a))
                      +:+ written b)).
  rewrite IHx. reflexivity.
Qed.

Lemma count_lines_hex (bs : bytes) : count_lines (hex bs) = 0%nat.
Proof.
  induction bs as [|b bs IH]; [reflexivity|].
  change (hex (b :: bs)) with (hex_byte b (hex bs)).
  destruct b; cbn; exact IH.
Qed.

Lemma count_lines_pretty_N_go (x : N) (s : string) :
  count_lines s = 0%nat -> count_lines (pretty_N_go x s) = 0%nat.
Proof.
  revert s. induction x as [x IH] using (well_founded_ind N.lt_wf_0).
  intros s Hs. destruct (decide (x = 0)%N) as [->|Hx].
  - by rewrite pretty_N_go_0.
  - rewrite pretty_N_go_step by lia. apply IH.
    + apply N.div_lt; lia.
    + cbn [count_lines]. rewrite Hs.
      unfold pretty_N_char. by repeat case_match.
Qed.

Lemma count_lines_str_of_int (z : Z) : count_lines (str_of_int z) = 0%nat.
Proof.
  unfold str_of_int, pretty, pretty_Z.
  destruct z as [|p|p]; [reflexivity| |].
  - unfold pretty, pretty_positive, pretty, pretty_N.
    case_decide; [done|]. by apply count_lines_pretty_N_go.
  - change (count_lines (String "-" (pretty p)) = 0%nat).
    cbn [count_lines]. change (Ascii.eqb "-" (ascii_of_nat 10)) with false.
    unfold pretty, pretty_positive, pretty, pretty_N.
    case_decide; [done|]. by apply count_lines_pretty_N_go.
Qed.

Lemma count_lines_str_of_bool (b : bool) : count_lines (str_of_bool b) = 0%nat.
Proof. destruct b; reflexivity. Qed.

Lemma encode_inj (s t : string) : encode s = encode t -> s = t.
Proof.
  unfold encode. intros E.
  rewrite <- (string_of_list_byte_of_string s),
          <- (string_of_list_byte_of_string t), E.
  reflexivity.
Qed.

(* ===================================================================== *)
(** ** The unit tests *)
(* ===================================================================== *)

(** The commitments of the unit tests' simulator, as [hashlib] prints
    them. *)
Example test_sim_commitments :
  self_dict test_sim !! "secret_hash" = Some (VStr
    "0d044d2372b9ef90539beec149f765d8c1296e031e52582518420538876de85e")
  /\ self_dict test_sim !! "alice_pubkey_hash" = Some (VStr
    "c4b8dce05dfd3b1df11e3e04925999bd09941a4d")
  /\ self_dict test_sim !! "bob_pubkey_hash" = Some (VStr
    "3aaed09a5cca487c80485fed97df286f3920d0c0").
Proof. vm_compute. repeat split. Qed.

Example test_alice_valid_claim :
  result (@validate_alice_claim openssl "test_secret_123" "alice_key" 10
            test_sim) = Returned true.
Proof. vm_compute. reflexivity. Qed.

Example test_alice_invalid_secret :
  result (@validate_alice_claim openssl "wrong_secret" "alice_key" 10
            test_sim) = Returned false.
Proof. vm_compute. reflexivity. Qed.

Example test_bob_refund_before_timeout :
  result (@validate_bob_refund openssl "bob_key" 10 21 test_sim)
  = Returned false.
Proof. vm_compute. reflexivity. Qed.

Example test_bob_refund_after_timeout :
  result (@validate_bob_refund openssl "bob_key" 25 21 test_sim)
  = Returned true.
Proof. vm_compute. reflexivity. Qed.

(** The five scenarios of [run_tests], timeout 21. *)
Example run_tests_scenarios :
  result (@validate_alice_claim openssl
            "super_secret_preimage_12345" "alice_public_key_xyz" 10 demo_sim)
    = Returned true
  /\ result (@validate_alice_claim openssl
               "wrong_secret" "alice_public_key_xyz" 10 demo_sim)
     = Returned false
  /\ result (@validate_bob_refund openssl "bob_public_key_abc" 15 21 demo_sim)
     = Returned false
  /\ result (@validate_bob_refund openssl "bob_public_key_abc" 25 21 demo_sim)
     = Returned true
  /\ result (@validate_alice_claim openssl
               "super_secret_preimage_12345" "alice_public_key_xyz" 25 demo_sim)
     = Returned true.
Proof. vm_compute. repeat split. Qed.

(* ===================================================================== *)
(** ** Running the methods *)
(* ===================================================================== *)

Section Runs.

Context `{Digests}.

Lemma hash160_unfold (data : string) :
  hash160 data = hex (ripemd160_digest (sha256_digest (encode data))).
Proof. reflexivity. Qed.

Lemma secret_commitment_unfold (secret : string) :
  secret_commitment secret = hex (sha256_digest (encode secret)).
Proof. reflexivity. Qed.

Lemma HTLCSimulator_run secret alice bob out :
  HTLCSimulator secret alice bob out =
  (Returned tt, {| self_dict := fields secret alice bob; stdout := out |}).
Proof. reflexivity. Qed.

Lemma constructed_dict s a b out :
  self_dict (constructed s a b out) = fields s a b.
Proof. reflexivity. Qed.

Lemma fields_secret s a b :
  fields s a b !! "secret" = Some (VStr s).
Proof. unfold fields. by simplify_map_eq. Qed.

Lemma fields_secret_hash s a b :
  fields s a b !! "secret_hash" = Some (VStr (secret_commitment s)).
Proof. unfold fields. by simplify_map_eq. Qed.

Lemma fields_alice_pubkey s a b :
  fields s a b !! "alice_pubkey" = Some (VStr a).
Proof. unfold fields. by simplify_map_eq. Qed.

Lemma fields_bob_pubkey s a b :
  fields s a b !! "bob_pubkey" = Some (VStr b).
Proof. unfold fields. by simplify_map_eq. Qed.

Lemma fields_alice_pubkey_hash s a b :
  fields s a b !! "alice_pubkey_hash" = Some (VStr (hash160 a)).
Proof. unfold fields. by simplify_map_eq. Qed.

Lemma fields_bob_pubkey_hash s a b :
  fields s a b !! "bob_pubkey_hash" = Some (VStr (hash160 b)).
Proof. unfold fields. by simplify_map_eq. Qed.

Lemma fields_hash160 s a b :
  fields s a b !! "hash160" = None.
Proof. unfold fields. by simplify_map_eq. Qed.

Lemma fields_current_block s a b :
  fields s a b !! "current_block" = Some (VInt 0).
Proof. unfold fields. by simplify_map_eq. Qed.

(** Both methods, run on any object that has the attributes they read
    and whose [hash160] is the static method. *)
Lemma validate_alice_claim_run ps pk h w sh ak ah :
  self_dict w !! "secret_hash" = Some sh ->
  self_dict w !! "alice_pubkey" = Some ak ->
  self_dict w !! "hash160" = None ->
  self_dict w !! "alice_pubkey_hash" = Some ah ->
  validate_alice_claim ps pk h w =
  (Returned (py_eq (VStr (secret_commitment ps)) sh
             && py_eq (VStr (hash160 pk)) ah),
   {| self_dict := self_dict w;
      stdout := stdout w ++ alice_report ps pk h sh ak ah |}).
Proof.
  intros Hsh Hak Hm Hah. run_method.
  unfold alice_report, secret_commitment.
  repeat rewrite <- app_assoc. reflexivity.
Qed.

Lemma validate_bob_refund_run pk h t w bk bh :
  self_dict w !! "bob_pubkey" = Some bk ->
  self_dict w !! "hash160" = None ->
  self_dict w !! "bob_pubkey_hash" = Some bh ->
  validate_bob_refund pk h t w =
  (Returned ((h >=? t) && py_eq (VStr (hash160 pk)) bh),
   {| self_dict := self_dict w;
      stdout := stdout w ++ bob_report pk h t bk bh |}).
Proof.
  intros Hbk Hm Hbh. run_method.
  unfold bob_report.
  repeat rewrite <- app_assoc. reflexivity.
Qed.

(** The value returned by an evaluation on an arbitrary object: a missing
    attribute or a shadowed [hash160] raises, in the order the method
    reads them, otherwise the conjunction of the two sub-checks. *)
Lemma validate_alice_claim_result ps pk h w :
  result (validate_alice_claim ps pk h w) =
  match self_dict w !! "secret_hash" with
  | None => Raised (AttributeError "secret_hash")
  | Some sh =>
      match self_dict w !! "alice_pubkey" with
      | None => Raised (AttributeError "alice_pubkey")
      | Some _ =>
          match self_dict w !! "hash160" with
          | Some v => Raised (not_callable v)
          | None =>
              match self_dict w !! "alice_pubkey_hash" with
              | None => Raised (AttributeError "alice_pubkey_hash")
              | Some ah =>
                  Returned (py_eq (VStr (secret_commitment ps)) sh
                            && py_eq (VStr (hash160 pk)) ah)
              end
          end
      end
  end.
Proof. run_method; reflexivity. Qed.

Lemma validate_bob_refund_result pk h t w :
  result (validate_bob_refund pk h t w) =
  match self_dict w !! "bob_pubkey" with
  | None => Raised (AttributeError "bob_pubkey")
  | Some _ =>
      match self_dict w !! "hash160" with
      | Some v => Raised (not_callable v)
      | None =>
          match self_dict w !! "bob_pubkey_hash" with
          | None => Raised (AttributeError "bob_pubkey_hash")
          | Some bh => Returned ((h >=? t) && py_eq (VStr (hash160 pk)) bh)
          end
      end
  end.
Proof. run_method; reflexivity. Qed.

(** Neither evaluation assigns an attribute, whatever the object. *)
Lemma validate_alice_claim_frame ps pk h w :
  self_dict (after (validate_alice_claim ps pk h w)) = self_dict w.
Proof. run_method; reflexivity. Qed.

Lemma validate_bob_refund_frame pk h t w :
  self_dict (after (validate_bob_refund pk h t w)) = self_dict w.
Proof. run_method; reflexivity. Qed.

(** The output of a refund is determined by what it looks up on the
    object and by what was printed before. *)
Lemma validate_bob_refund_reads pk h t w w' :
  self_dict w' !! "bob_pubkey" = self_dict w !! "bob_pubkey" ->
  self_dict w' !! "hash160" = self_dict w !! "hash160" ->
  self_dict w' !! "bob_pubkey_hash" = self_dict w !! "bob_pubkey_hash" ->
  stdout w' = stdout w ->
  result (validate_bob_refund pk h t w') = result (validate_bob_refund pk h t w)
  /\ stdout (after (validate_bob_refund pk h t w')) =
     stdout (after (validate_bob_refund pk h t w)).
Proof.
  intros Ek Em Eh Eo.
  unfold validate_bob_refund, self_hash160,
         bind, print, getattr, ret, result, after.
  repeat (cbn [self_dict stdout fst snd]; rewrite ?Ek, ?Em, ?Eh, ?Eo;
          match goal with
          | Hk : self_dict w !! ?k = _ |- context [self_dict w !! ?k] =>
              rewrite Hk
          | |- context [match self_dict w !! ?k with _ => _ end] =>
              let E := fresh "E" in destruct (self_dict w !! k) eqn:E
          end);
  cbn [self_dict stdout fst snd]; split; reflexivity.
Qed.

(** Both evaluations, run on a constructed simulator. *)
Lemma claim_run s a b out ps pk h :
  validate_alice_claim ps pk h (constructed s a b out) =
  (Returned (secret_match ps s && identity_match pk a),
   {| self_dict := fields s a b;
      stdout := out ++ alice_report ps pk h
                         (VStr (secret_commitment s)) (VStr a)
                         (VStr (hash160 a)) |}).
Proof.
  exact (validate_alice_claim_run ps pk h (constructed s a b out) _ _ _
           (fields_secret_hash s a b) (fields_alice_pubkey s a b)
           (fields_hash160 s a b) (fields_alice_pubkey_hash s a b)).
Qed.

Lemma refund_run s a b out pk h t :
  validate_bob_refund pk h t (constructed s a b out) =
  (Returned (timeout_elapsed h t && identity_match pk b),
   {| self_dict := fields s a b;
      stdout := out ++ bob_report pk h t (VStr b) (VStr (hash160 b)) |}).
Proof.
  exact (validate_bob_refund_run pk h t (constructed s a b out) _ _
           (fields_bob_pubkey s a b) (fields_hash160 s a b)
           (fields_bob_pubkey_hash s a b)).
Qed.

(** The eleven [print] calls of a claim write fifteen lines, those of a
    refund fourteen: four, respectively three, of the printed texts begin
    with a newline of their own. *)
Lemma alice_report_lines s a ps pk h :
  length (alice_report ps pk h (VStr (secret_commitment s)) (VStr a)
                       (VStr (hash160 a))) = 11%nat
  /\ count_lines (written (alice_report ps pk h (VStr (secret_commitment s))
                                        (VStr a) (VStr (hash160 a))))
     = 15%nat.
Proof.
  split; [reflexivity|].
  unfold alice_report, written. cbn [fold_right str py_eq].
  rewrite !secret_commitment_unfold.
  change (hexdigest (sha256 (encode ps)))
    with (hex (sha256_digest (encode ps))).
  repeat (rewrite count_lines_app || cbn [count_lines]).
  rewrite !count_lines_hex, !count_lines_str_of_bool, count_lines_str_of_int.
  destruct (_ && _); reflexivity.
Qed.

Lemma bob_report_lines b pk h t :
  length (bob_report pk h t (VStr b) (VStr (hash160 b))) = 11%nat
  /\ count_lines (written (bob_report pk h t (VStr b) (VStr (hash160 b))))
     = 14%nat.
Proof.
  split; [reflexivity|].
  unfold bob_report, written. cbn [fold_right str py_eq].
  repeat (rewrite count_lines_app || cbn [count_lines]).
  rewrite !count_lines_str_of_bool, !count_lines_str_of_int.
  destruct (h >=? t); destruct (String.eqb _ _); reflexivity.
Qed.

Lemma claim_verdict s a b out ps pk h :
  result (validate_alice_claim ps pk h (constructed s a b out)) =
  Returned (secret_match ps s && identity_match pk a).
Proof. rewrite claim_run. reflexivity. Qed.

Lemma refund_verdict s a b out pk h t :
  result (validate_bob_refund pk h t (constructed s a b out)) =
  Returned (timeout_elapsed h t && identity_match pk b).
Proof. rewrite refund_run. reflexivity. Qed.

Lemma claim_verdict_after_refund s a b out ps pk h pk' h' t :
  result (validate_alice_claim ps pk h
            (after (validate_bob_refund pk' h' t (constructed s a b out)))) =
  result (validate_alice_claim ps pk h (constructed s a b out)).
Proof.
  rewrite !validate_alice_claim_result, validate_bob_refund_frame.
  reflexivity.
Qed.

Lemma refund_verdict_after_claim s a b out ps pk' h' pk h t :
  result (validate_bob_refund pk h t
            (after (validate_alice_claim ps pk' h' (constructed s a b out)))) =
  result (validate_bob_refund pk h t (constructed s a b out)).
Proof.
  rewrite !validate_bob_refund_result, validate_alice_claim_frame.
  reflexivity.
Qed.

Lemma secret_match_refl s : secret_match s s = true.
Proof. apply String.eqb_refl. Qed.

Lemma identity_match_refl k : identity_match k k = true.
Proof. apply String.eqb_refl. Qed.

Lemma identity_match_neq k k' :
  hash160 k <> hash160 k' -> identity_match k k' = false.
Proof. apply String.eqb_neq. Qed.

Lemma identity_match_false k k' :
  identity_match k k' = false -> hash160 k <> hash160 k'.
Proof. apply String.eqb_neq. Qed.

End Runs.

(* ===================================================================== *)
(** ** Properties of the simulator *)
(* ===================================================================== *)

Section Claims.

Context `{Digests}.

(** C1. Claim correctness: on a simulator built from [secret], [alice]
    and [bob], [validate_alice_claim] returns [True] exactly when the
    candidate secret is the preimage given at construction and the
    candidate key is Alice's key given at construction, provided the
    candidates do not collide with the committed values under SHA256
    and under RIPEMD160 after SHA256; it never raises, and the block
    height passed in does not change what it returns. *)
Theorem claim_correctness secret alice bob out ps pk :
  (sha256_digest (encode ps) = sha256_digest (encode secret) ->
   ps = secret) ->
  (ripemd160_digest (sha256_digest (encode pk)) =
   ripemd160_digest (sha256_digest (encode alice)) -> pk = alice) ->
  forall h : Z,
    (exists authorized : bool,
       result (validate_alice_claim ps pk h
                 (constructed secret alice bob out)) = Returned authorized
       /\ (authorized = true <-> ps = secret /\ pk = alice))
    /\ (forall h' : Z,
          result (validate_alice_claim ps pk h'
                    (constructed secret alice bob out)) =
          result (validate_alice_claim ps pk h
                    (constructed secret alice bob out))).
Proof.
  intros Hsecret Hkey h. split.
  - eexists. split; [apply claim_verdict|].
    unfold secret_match, identity_match.
    rewrite andb_true_iff, !String.eqb_eq.
    rewrite !secret_commitment_unfold, !hash160_unfold.
    split.
    + intros [E1 E2]. split.
      * apply Hsecret, hex_inj, E1.
      * apply Hkey, hex_inj, E2.
    + intros [-> ->]. split; reflexivity.
  - intros h'. rewrite !claim_verdict. reflexivity.
Qed.

(** C2. Refund timeout boundary: with Bob's own key and timeout [T],
    [validate_bob_refund] returns [False] at height [T - 1], [True] at
    height [T] itself, and [True] at every height [T + k], [k >= 0]. *)
Theorem refund_timeout_boundary secret alice bob out T k :
  0 <= k ->
  result (validate_bob_refund bob (T - 1) T
            (constructed secret alice bob out)) = Returned false
  /\ result (validate_bob_refund bob T T
               (constructed secret alice bob out)) = Returned true
  /\ result (validate_bob_refund bob (T + k) T
               (constructed secret alice bob out)) = Returned true.
Proof.
  intros Hk. rewrite !refund_verdict, identity_match_refl, !andb_true_r.
  unfold timeout_elapsed. repeat split; f_equal; lia.
Qed.

(** C5. Non-exclusivity: at every height [h] at or after the timeout
    [T], the claim with the right secret and Alice's key returns [True]
    and the refund with Bob's key returns [True] as well, on the same
    simulator; and each still does after the other has been evaluated,
    in either order. *)
Theorem claim_and_refund_both_authorized secret alice bob out T h :
  T <= h ->
  result (validate_alice_claim secret alice h
            (constructed secret alice bob out)) = Returned true
  /\ result (validate_bob_refund bob h T
               (constructed secret alice bob out)) = Returned true
  /\ result (validate_bob_refund bob h T
               (after (validate_alice_claim secret alice h
                         (constructed secret alice bob out))))
     = Returned true
  /\ result (validate_alice_claim secret alice h
               (after (validate_bob_refund bob h T
                         (constructed secret alice bob out))))
     = Returned true.
Proof.
  intros Hh.
  rewrite claim_verdict_after_refund, refund_verdict_after_claim.
  rewrite claim_verdict, refund_verdict.
  rewrite secret_match_refl, !identity_match_refl.
  unfold timeout_elapsed. replace (h >=? T) with true by lia.
  repeat split; reflexivity.
Qed.

(** C6. Identity isolation: when the two key commitments stored in the
    simulator differ, a claim presenting Bob's key returns [False] even
    with the right secret, and a refund presenting Alice's key returns
    [False] at every height, in particular at and after the timeout. *)
Theorem identity_isolation secret alice bob out :
  hash160 alice <> hash160 bob ->
  forall h T : Z,
    result (validate_alice_claim secret bob h
              (constructed secret alice bob out)) = Returned false
    /\ result (validate_bob_refund alice h T
                 (constructed secret alice bob out)) = Returned false.
Proof.
  intros Hne h T. rewrite claim_verdict, refund_verdict.
  rewrite (identity_match_neq bob alice) by congruence.
  rewrite (identity_match_neq alice bob) by congruence.
  rewrite !andb_false_r. split; reflexivity.
Qed.

(** C7. The refund never reads the secret: two simulators built from
    different secrets and the same keys return the same verdict and
    write the same report for every candidate key, height and timeout;
    and on any object, overwriting the attributes [secret] and
    [secret_hash] changes neither. *)
Theorem refund_ignores_secret secret1 secret2 alice bob out pk h T :
  (result (validate_bob_refund pk h T (constructed secret1 alice bob out)) =
   result (validate_bob_refund pk h T (constructed secret2 alice bob out))
   /\ stdout (after (validate_bob_refund pk h T
                       (constructed secret1 alice bob out))) =
      stdout (after (validate_bob_refund pk h T
                       (constructed secret2 alice bob out))))
  /\ forall (w : world) (v v' : value),
       let w' := {| self_dict :=
                      <["secret" := v]> (<["secret_hash" := v']> (self_dict w));
                    stdout := stdout w |} in
       result (validate_bob_refund pk h T w') =
       result (validate_bob_refund pk h T w)
       /\ stdout (after (validate_bob_refund pk h T w')) =
          stdout (after (validate_bob_refund pk h T w)).
Proof.
  split.
  - rewrite !refund_run. split; reflexivity.
  - intros w v v' w'. apply validate_bob_refund_reads.
    + subst w'; cbn [self_dict]. by simplify_map_eq.
    + subst w'; cbn [self_dict]. by simplify_map_eq.
    + subst w'; cbn [self_dict]. by simplify_map_eq.
    + reflexivity.
Qed.

(** C8. [hash160] is RIPEMD160 applied to the SHA256 digest of the bytes
    of its argument, and the constructor stores SHA256 of the secret
    and [hash160] of each key, all rendered in hexadecimal; the stored
    commitments are a function of the constructor's arguments alone, so
    equal arguments give equal commitments whatever the process has
    printed before. *)
Theorem commitments_are_the_stated_digests secret alice bob out :
  (forall data : string, hash160 data = hex (spec_H160 (encode data)))
  /\ self_dict (constructed secret alice bob out) !! "secret_hash"
     = Some (VStr (hex (spec_H (encode secret))))
  /\ self_dict (constructed secret alice bob out) !! "alice_pubkey_hash"
     = Some (VStr (hex (spec_H160 (encode alice))))
  /\ self_dict (constructed secret alice bob out) !! "bob_pubkey_hash"
     = Some (VStr (hex (spec_H160 (encode bob))))
  /\ (forall out' : list string,
        self_dict (constructed secret alice bob out')
        = self_dict (constructed secret alice bob out)).
Proof.
  rewrite constructed_dict.
  rewrite fields_secret_hash, fields_alice_pubkey_hash,
          fields_bob_pubkey_hash.
  repeat split.
Qed.

(** C10. Only the digest of the candidate key matters: two candidate
    keys with the same [hash160] get the same returned value from
    [validate_alice_claim] and from [validate_bob_refund], on any
    object and for any other arguments; the comparison of the raw key
    with the stored key does not enter the returned value. *)
Theorem verdict_depends_on_key_digest_only pk1 pk2 :
  hash160 pk1 = hash160 pk2 ->
  forall (w : world) (ps : string) (h T : Z),
    result (validate_alice_claim ps pk1 h w) =
    result (validate_alice_claim ps pk2 h w)
    /\ result (validate_bob_refund pk1 h T w) =
       result (validate_bob_refund pk2 h T w).
Proof.
  intros E w ps h T.
  rewrite !validate_alice_claim_result, !validate_bob_refund_result, E.
  split; reflexivity.
Qed.

(** C3, as the code has it: the constructor takes a secret and two
    keys and no timeout, checks none of them and never raises, so every
    string, the empty one included, is accepted and stored as given;
    the timeout is an argument of [validate_bob_refund], which returns
    a verdict for every integer, negative ones included. *)
Theorem construction_accepts_every_input secret alice bob out :
  result (HTLCSimulator secret alice bob out) = Returned tt
  /\ self_dict (constructed secret alice bob out) !! "secret"
     = Some (VStr secret)
  /\ self_dict (constructed secret alice bob out) !! "alice_pubkey"
     = Some (VStr alice)
  /\ self_dict (constructed secret alice bob out) !! "bob_pubkey"
     = Some (VStr bob)
  /\ forall (pk : string) (h T : Z),
       result (validate_bob_refund pk h T (constructed secret alice bob out))
       = Returned (timeout_elapsed h T && identity_match pk bob).
Proof.
  rewrite constructed_dict.
  rewrite fields_secret, fields_alice_pubkey, fields_bob_pubkey.
  split; [reflexivity|]. split; [reflexivity|].
  split; [reflexivity|]. split; [reflexivity|].
  intros pk h T. apply refund_verdict.
Qed.

(** C4, as the code has it: each evaluation returns the bare boolean
    [A and B] of its two sub-checks, and reports the sub-checks on
    standard output instead, both of them on every call and in this
    order: for a claim the line [Secret Hash Match] and later the line
    [Public Key Hash Match]; for a refund the line [Timeout Check] and
    later the line [Public Key Hash Match]. *)
Theorem verdict_is_a_boolean_and_subchecks_are_printed
    secret alice bob out ps pk h T :
  (result (validate_alice_claim ps pk h (constructed secret alice bob out))
   = Returned (secret_match ps secret && identity_match pk alice)
   /\ exists l1 l2 l3 : list string,
        stdout (after (validate_alice_claim ps pk h
                         (constructed secret alice bob out))) =
        (out ++ l1
             ++ ["Secret Hash Match: "
                   +:+ str_of_bool (secret_match ps secret)]
             ++ l2
             ++ ["Public Key Hash Match: "
                   +:+ str_of_bool (identity_match pk alice)]
             ++ l3)%list)
  /\ (result (validate_bob_refund pk h T (constructed secret alice bob out))
      = Returned (timeout_elapsed h T && identity_match pk bob)
      /\ exists l1 l2 l3 : list string,
           stdout (after (validate_bob_refund pk h T
                            (constructed secret alice bob out))) =
           (out ++ l1
                ++ ["Timeout Check: "
                      +:+ str_of_bool (timeout_elapsed h T)]
                ++ l2
                ++ ["Public Key Hash Match: "
                      +:+ str_of_bool (identity_match pk bob)]
                ++ l3)%list).
Proof.
  split; split.
  - apply claim_verdict.
  - rewrite claim_run. unfold after; cbn [snd stdout]. unfold alice_report.
    eexists [_; _; _], [_; _; _], [_; _; _]. reflexivity.
  - apply refund_verdict.
  - rewrite refund_run. unfold after; cbn [snd stdout]. unfold bob_report.
    eexists [_; _; _], [_; _; _; _], [_; _]. reflexivity.
Qed.

(** C9, as the code has it: construction writes nothing and raises
    nothing; neither evaluation assigns any attribute, so the instance
    dictionary, with every commitment, both keys and [current_block],
    is the same after the call as before, on any object; but every
    evaluation writes to standard output: it makes eleven [print] calls,
    which write fifteen lines of text for a claim and fourteen for a
    refund. *)
Theorem evaluations_print_and_do_not_mutate
    secret alice bob out ps pk h T :
  HTLCSimulator secret alice bob out
    = (Returned tt, {| self_dict := fields secret alice bob; stdout := out |})
  /\ (forall w : world,
        self_dict (after (validate_alice_claim ps pk h w)) = self_dict w
        /\ self_dict (after (validate_bob_refund pk h T w)) = self_dict w)
  /\ (exists report : list string,
        length report = 11%nat
        /\ count_lines (written report) = 15%nat
        /\ stdout (after (validate_alice_claim ps pk h
                            (constructed secret alice bob out)))
           = (out ++ report)%list)
  /\ (exists report : list string,
        length report = 11%nat
        /\ count_lines (written report) = 14%nat
        /\ stdout (after (validate_bob_refund pk h T
                            (constructed secret alice bob out)))
           = (out ++ report)%list).
Proof.
  split; [reflexivity|]. split.
  - intros w. split.
    + apply validate_alice_claim_frame.
    + apply validate_bob_refund_frame.
  - rewrite claim_run, refund_run. unfold after; cbn [snd stdout].
    split; eexists.
    + split; [apply alice_report_lines|].
      split; [apply alice_report_lines | reflexivity].
    + split; [apply bob_report_lines|].
      split; [apply bob_report_lines | reflexivity].
Qed.

End Claims.

(* ===================================================================== *)
(** ** The properties at the unit tests' inputs *)
(* ===================================================================== *)

Lemma claim_correctness_witness :
  (exists authorized : bool,
     result (@validate_alice_claim openssl "wrong_secret" "alice_key" 10
               test_sim) = Returned authorized
     /\ (authorized = true <->
         "wrong_secret" = "test_secret_123" /\ "alice_key" = "alice_key"))
  /\ (forall h' : Z,
        result (@validate_alice_claim openssl "wrong_secret" "alice_key" h'
                  test_sim) =
        result (@validate_alice_claim openssl "wrong_secret" "alice_key" 10
                  test_sim)).
Proof.
  apply (@claim_correctness openssl
           "test_secret_123" "alice_key" "bob_key" []
           "wrong_secret" "alice_key").
  - intros E. exfalso. revert E. apply hex_neq. vm_compute. reflexivity.
  - intros _. reflexivity.
Defined.

Lemma refund_timeout_boundary_witness :
  result (@validate_bob_refund openssl "bob_key" (21 - 1) 21 test_sim)
    = Returned false
  /\ result (@validate_bob_refund openssl "bob_key" 21 21 test_sim)
       = Returned true
  /\ result (@validate_bob_refund openssl "bob_key" (21 + 4) 21 test_sim)
       = Returned true.
Proof.
  apply (@refund_timeout_boundary openssl
           "test_secret_123" "alice_key" "bob_key" [] 21 4).
  lia.
Defined.

Lemma claim_and_refund_both_authorized_witness :
  result (@validate_alice_claim openssl "test_secret_123" "alice_key" 25
            test_sim) = Returned true
  /\ result (@validate_bob_refund openssl "bob_key" 25 21 test_sim)
       = Returned true
  /\ result (@validate_bob_refund openssl "bob_key" 25 21
               (after (@validate_alice_claim openssl
                         "test_secret_123" "alice_key" 25 test_sim)))
     = Returned true
  /\ result (@validate_alice_claim openssl "test_secret_123" "alice_key" 25
               (after (@validate_bob_refund openssl "bob_key" 25 21 test_sim)))
     = Returned true.
Proof.
  apply (@claim_and_refund_both_authorized openssl
           "test_secret_123" "alice_key" "bob_key" [] 21 25).
  lia.
Defined.

Lemma identity_isolation_witness :
  result (@validate_alice_claim openssl "test_secret_123" "bob_key" 25
            test_sim) = Returned false
  /\ result (@validate_bob_refund openssl "alice_key" 25 21 test_sim)
       = Returned false.
Proof.
  apply (@identity_isolation openssl
           "test_secret_123" "alice_key" "bob_key" []).
  apply identity_match_false. vm_compute. reflexivity.
Defined.

(** With colliding digests a key that is not Alice's is treated as
    hers. *)
Lemma verdict_depends_on_key_digest_only_witness :
  result (@validate_alice_claim first_byte_digests "s" "alice_key" 10
            (@constructed first_byte_digests "s" "alice_key" "bob_key" [])) =
  result (@validate_alice_claim first_byte_digests "s" "another_key" 10
            (@constructed first_byte_digests "s" "alice_key" "bob_key" []))
  /\ result (@validate_bob_refund first_byte_digests "alice_key" 10 21
               (@constructed first_byte_digests "s" "alice_key" "bob_key" [])) =
     result (@validate_bob_refund first_byte_digests "another_key" 10 21
               (@constructed first_byte_digests "s" "alice_key" "bob_key" [])).
Proof.
  apply (@verdict_depends_on_key_digest_only first_byte_digests
           "alice_key" "another_key").
  reflexivity.
Defined.

(** C3 fails as stated: with an empty secret and empty keys the
    constructor returns normally and stores the digests of the empty
    string, and a refund with a negative timeout is evaluated and even
    authorised. *)
Lemma construction_accepts_empty_inputs :
  result (@HTLCSimulator openssl "" "" "" []) = Returned tt
  /\ self_dict (@constructed openssl "" "" "" []) !! "secret_hash" = Some (VStr
       "e3b0c44298fc1c149afbf4c8996fb92427ae41e4649b934ca495991b7852b855")
  /\ result (@validate_bob_refund openssl "" (-1) (-5)
               (@constructed openssl "" "" "" [])) = Returned true.
Proof. vm_compute. repeat split. Qed.

(** C4 fails as stated: the value returned cannot carry the sub-check
    results.  A wrong secret with the right key and the right secret with
    the wrong key return the same value, although the sub-checks differ,
    so nothing read off the returned value gives the sub-checks. *)
Lemma returned_value_has_no_subcheck_results :
  ~ exists reasons : outcome bool -> list bool,
      forall ps pk : string,
        reasons (result (@validate_alice_claim openssl ps pk 10 test_sim)) =
        [ @secret_match openssl ps "test_secret_123";
          @identity_match openssl pk "alice_key" ].
Proof.
  intros [reasons Hr].
  pose proof (Hr "wrong_secret" "alice_key") as H1.
  pose proof (Hr "test_secret_123" "bob_key") as H2.
  assert (R1 : result (@validate_alice_claim openssl
                         "wrong_secret" "alice_key" 10 test_sim)
               = Returned false) by (vm_compute; reflexivity).
  assert (R2 : result (@validate_alice_claim openssl
                         "test_secret_123" "bob_key" 10 test_sim)
               = Returned false) by (vm_compute; reflexivity).
  assert (A1 : @secret_match openssl "wrong_secret" "test_secret_123" = false)
    by (vm_compute; reflexivity).
  assert (A2 : @secret_match openssl "test_secret_123" "test_secret_123" = true)
    by (vm_compute; reflexivity).
  assert (B1 : @identity_match openssl "alice_key" "alice_key" = true)
    by (vm_compute; reflexivity).
  assert (B2 : @identity_match openssl "bob_key" "alice_key" = false)
    by (vm_compute; reflexivity).
  rewrite R1, A1, B1 in H1. rewrite R2, A2, B2 in H2.
  rewrite H1 in H2. discriminate H2.
Qed.

(** C9 fails as stated: the evaluations of the unit tests write text to
    a standard output that was empty before. *)
Lemma evaluation_writes_to_stdout :
  stdout test_sim = []
  /\ nth_error
       (stdout (after (@validate_alice_claim openssl
                         "test_secret_123" "alice_key" 10 test_sim))) 3
     = Some "Secret Hash Match: True"
  /\ nth_error
       (stdout (after (@validate_bob_refund openssl "bob_key" 10 21 test_sim))) 3
     = Some "Timeout Check: False".
Proof. vm_compute. repeat split. Qed.

(* ===================================================================== *)
(** ** Further properties: the script templates *)
(* ===================================================================== *)

Lemma append_assoc (a b c : string) : (a +:+ b) +:+ c = a +:+ (b +:+ c).
Proof.
  induction a as [|x a IH]; [reflexivity|].
  change (String x ((a +:+ b) +:+ c) = String x (a +:+ (b +:+ c))).
  rewrite IH. reflexivity.
Qed.

(** Two texts that agree up to and after a field are the same field,
    when the field cannot contain its closing bracket. *)
Lemma cut_at_bracket a b r1 r2 :
  no_closing_bracket a = true -> no_closing_bracket b = true ->
  a +:+ String ">" r1 = b +:+ String ">" r2 -> a = b /\ r1 = r2.
Proof.
  revert b. induction a as [|x a IH]; intros [|y b] Ha Hb E.
  - change (String ">" r1 = String ">" r2) in E. by simplify_eq.
  - change (String ">" r1 = String y (b +:+ String ">" r2)) in E.
    injection E as <- _. cbn in Hb. discriminate Hb.
  - change (String x (a +:+ String ">" r1) = String ">" r2) in E.
    injection E as -> _. cbn in Ha. discriminate Ha.
  - change (String x (a +:+ String ">" r1)
            = String y (b +:+ String ">" r2)) in E.
    cbn in Ha, Hb.
    apply andb_true_iff in Ha as [_ Ha]. apply andb_true_iff in Hb as [_ Hb].
    injection E as -> E. destruct (IH b Ha Hb E) as [-> ->]. done.
Qed.

Lemma cut_at_field_end a b lit lit' r1 r2 :
  no_closing_bracket a = true -> no_closing_bracket b = true ->
  lit = String ">" lit' ->
  a +:+ lit +:+ r1 = b +:+ lit +:+ r2 -> a = b /\ r1 = r2.
Proof.
  intros Ha Hb -> E.
  change (a +:+ String ">" (lit' +:+ r1) = b +:+ String ">" (lit' +:+ r2)) in E.
  apply cut_at_bracket in E as [-> E]; [|done..].
  split; [reflexivity|]. by apply (inj (String.append lit')).
Qed.

Lemma no_closing_bracket_hex (bs : bytes) : no_closing_bracket (hex bs) = true.
Proof.
  induction bs as [|b bs IH]; [reflexivity|].
  change (hex (b :: bs)) with (hex_byte b (hex bs)).
  destruct b; cbn; exact IH.
Qed.

Lemma no_closing_bracket_pretty_N_go (x : N) (s : string) :
  no_closing_bracket s = true -> no_closing_bracket (pretty_N_go x s) = true.
Proof.
  revert s. induction x as [x IH] using (well_founded_ind N.lt_wf_0).
  intros s Hs. destruct (decide (x = 0)%N) as [->|Hx].
  - by rewrite pretty_N_go_0.
  - rewrite pretty_N_go_step by lia. apply IH.
    + apply N.div_lt; lia.
    + cbn. rewrite Hs, andb_true_r.
      unfold pretty_N_char. by repeat case_match.
Qed.

Lemma no_closing_bracket_str_of_int (z : Z) :
  no_closing_bracket (str_of_int z) = true.
Proof.
  unfold str_of_int, pretty, pretty_Z.
  destruct z as [|p|p]; [reflexivity| |].
  - unfold pretty, pretty_positive, pretty, pretty_N.
    case_decide; [done|]. by apply no_closing_bracket_pretty_N_go.
  - change (no_closing_bracket (String "-" (pretty p)) = true).
    cbn [no_closing_bracket]. change (Ascii.eqb "-" ">") with false.
    cbn [negb andb].
    unfold pretty, pretty_positive, pretty, pretty_N.
    case_decide; [done|]. by apply no_closing_bracket_pretty_N_go.
Qed.

Lemma str_of_int_inj (x y : Z) : str_of_int x = str_of_int y -> x = y.
Proof. apply pretty_Z_inj. Qed.

(** Proof steps on an equation [E] between two filled templates: drop a
    literal both sides start with, and split at the end of a field. *)
Ltac strip_literal E := apply (inj (String.append _)) in E.
Ltac cut_field E Ha Hb :=
  let E1 := fresh "E" in
  apply (cut_at_field_end _ _ _ _ _ _ Ha Hb eq_refl) in E as [E1 E].

(** The fields of two equal locking scripts are equal. *)
Lemma htlc_script_fields sh1 ah1 bh1 t1 sh2 ah2 bh2 t2 :
  no_closing_bracket sh1 = true -> no_closing_bracket sh2 = true ->
  no_closing_bracket ah1 = true -> no_closing_bracket ah2 = true ->
  no_closing_bracket bh1 = true -> no_closing_bracket bh2 = true ->
  create_htlc_script sh1 ah1 bh1 t1 = create_htlc_script sh2 ah2 bh2 t2 ->
  sh1 = sh2 /\ ah1 = ah2 /\ bh1 = bh2 /\ t1 = t2.
Proof.
  intros Hs1 Hs2 Ha1 Ha2 Hb1 Hb2 E.
  unfold create_htlc_script, f_string_lines in E.
  cbn [String.concat app] in E. rewrite !append_assoc in E.
  repeat strip_literal E. cut_field E Hs1 Hs2.
  repeat strip_literal E. cut_field E Ha1 Ha2.
  repeat strip_literal E.
  cut_field E (no_closing_bracket_str_of_int t1)
              (no_closing_bracket_str_of_int t2).
  repeat strip_literal E. cut_field E Hb1 Hb2.
  match goal with Ht : str_of_int _ = _ |- _ => apply str_of_int_inj in Ht end.
  done.
Qed.

(** X1. The locking script determines its fields: for hashes that do
    not contain the closing bracket [>], two locking scripts are equal
    exactly when the three hashes and the timeouts are equal. *)
Theorem create_htlc_script_inj sh1 ah1 bh1 t1 sh2 ah2 bh2 t2 :
  no_closing_bracket sh1 = true -> no_closing_bracket sh2 = true ->
  no_closing_bracket ah1 = true -> no_closing_bracket ah2 = true ->
  no_closing_bracket bh1 = true -> no_closing_bracket bh2 = true ->
  create_htlc_script sh1 ah1 bh1 t1 = create_htlc_script sh2 ah2 bh2 t2
  <-> sh1 = sh2 /\ ah1 = ah2 /\ bh1 = bh2 /\ t1 = t2.
Proof.
  intros Hs1 Hs2 Ha1 Ha2 Hb1 Hb2. split.
  - by apply htlc_script_fields.
  - intros (-> & -> & -> & ->). reflexivity.
Qed.

(** X2. Alice's unlocking script determines its fields: for a
    signature, a key and a preimage that do not contain the closing
    bracket [>], two claiming scripts are equal exactly when the three
    fields are equal. *)
Theorem create_alice_claiming_script_inj sig1 key1 pre1 sig2 key2 pre2 :
  no_closing_bracket sig1 = true -> no_closing_bracket sig2 = true ->
  no_closing_bracket key1 = true -> no_closing_bracket key2 = true ->
  no_closing_bracket pre1 = true -> no_closing_bracket pre2 = true ->
  create_alice_claiming_script sig1 key1 pre1
  = create_alice_claiming_script sig2 key2 pre2
  <-> sig1 = sig2 /\ key1 = key2 /\ pre1 = pre2.
Proof.
  intros Hs1 Hs2 Hk1 Hk2 Hp1 Hp2. split.
  - intros E. unfold create_alice_claiming_script, f_string_lines in E.
    cbn [String.concat app] in E. rewrite !append_assoc in E.
    repeat strip_literal E. cut_field E Hs1 Hs2.
    repeat strip_literal E. cut_field E Hk1 Hk2.
    repeat strip_literal E. cut_field E Hp1 Hp2.
    done.
  - intros (-> & -> & ->). reflexivity.
Qed.

(** X3. Bob's unlocking script determines its fields: for a signature
    and a key that do not contain the closing bracket [>], two refund
    scripts are equal exactly when the two fields are equal. *)
Theorem create_bob_refund_script_inj sig1 key1 sig2 key2 :
  no_closing_bracket sig1 = true -> no_closing_bracket sig2 = true ->
  no_closing_bracket key1 = true -> no_closing_bracket key2 = true ->
  create_bob_refund_script sig1 key1 = create_bob_refund_script sig2 key2
  <-> sig1 = sig2 /\ key1 = key2.
Proof.
  intros Hs1 Hs2 Hk1 Hk2. split.
  - intros E. unfold create_bob_refund_script, f_string_lines in E.
    cbn [String.concat app] in E. rewrite !append_assoc in E.
    repeat strip_literal E. cut_field E Hs1 Hs2.
    repeat strip_literal E. cut_field E Hk1 Hk2.
    done.
  - intros (-> & ->). reflexivity.
Qed.

(** X4. A claiming script is never a refund script, whatever the
    fields. *)
Theorem claiming_script_is_not_refund_script sig key pre sig' key' :
  create_alice_claiming_script sig key pre
  <> create_bob_refund_script sig' key'.
Proof.
  intros E. unfold create_alice_claiming_script, create_bob_refund_script,
                   f_string_lines in E.
  cbn [String.concat app] in E. rewrite !append_assoc in E.
  do 2 strip_literal E.
  apply (f_equal (String.get 2)) in E. lazy in E. discriminate E.
Qed.

Lemma create_htlc_script_inj_witness :
  create_htlc_script "0d04" "c4b8" "3aae" 21
  = create_htlc_script "0d04" "c4b8" "3aae" 22
  <-> "0d04" = "0d04" /\ "c4b8" = "c4b8" /\ "3aae" = "3aae" /\ 21 = 22.
Proof.
  apply (create_htlc_script_inj "0d04" "c4b8" "3aae" 21 "0d04" "c4b8" "3aae" 22);
    reflexivity.
Defined.

Lemma create_alice_claiming_script_inj_witness :
  create_alice_claiming_script
    "alice_signature_data" "alice_key" "test_secret_123"
  = create_alice_claiming_script
      "alice_signature_data" "alice_key" "wrong_secret"
  <-> "alice_signature_data" = "alice_signature_data"
      /\ "alice_key" = "alice_key" /\ "test_secret_123" = "wrong_secret".
Proof.
  apply (create_alice_claiming_script_inj
           "alice_signature_data" "alice_key" "test_secret_123"
           "alice_signature_data" "alice_key" "wrong_secret");
    reflexivity.
Defined.

Lemma create_bob_refund_script_inj_witness :
  create_bob_refund_script "bob_signature_data" "bob_key"
  = create_bob_refund_script "bob_signature_data" "alice_key"
  <-> "bob_signature_data" = "bob_signature_data" /\ "bob_key" = "alice_key".
Proof.
  apply (create_bob_refund_script_inj
           "bob_signature_data" "bob_key" "bob_signature_data" "alice_key");
    reflexivity.
Defined.

(* ===================================================================== *)
(** ** Further properties: the simulator *)
(* ===================================================================== *)

Section MoreProperties.

Context `{Digests}.

(** X5. A claim is authorised exactly when the digests match: the
    candidate secret has the SHA256 digest of the construction secret and
    the candidate key has the RIPEMD160-of-SHA256 digest of Alice's key.
    No assumption on collisions is needed for this form. *)
Theorem claim_authorized_iff_digests_match secret alice bob out ps pk h :
  result (validate_alice_claim ps pk h (constructed secret alice bob out))
  = Returned true
  <-> sha256_digest (encode ps) = sha256_digest (encode secret)
      /\ ripemd160_digest (sha256_digest (encode pk))
         = ripemd160_digest (sha256_digest (encode alice)).
Proof.
  rewrite claim_verdict. unfold secret_match, identity_match.
  rewrite !secret_commitment_unfold, !hash160_unfold. split.
  - intros E. injection E as E. apply andb_true_iff in E as [E1 E2].
    apply String.eqb_eq in E1, E2. split; apply hex_inj; assumption.
  - intros [-> ->]. rewrite !String.eqb_refl. reflexivity.
Qed.

(** X6. A refund is authorised exactly when the height has reached the
    timeout and the candidate key has the digest of Bob's key. *)
Theorem refund_authorized_iff secret alice bob out pk h T :
  result (validate_bob_refund pk h T (constructed secret alice bob out))
  = Returned true
  <-> T <= h
      /\ ripemd160_digest (sha256_digest (encode pk))
         = ripemd160_digest (sha256_digest (encode bob)).
Proof.
  rewrite refund_verdict. unfold timeout_elapsed, identity_match.
  rewrite !hash160_unfold. split.
  - intros E. injection E as E. apply andb_true_iff in E as [E1 E2].
    apply String.eqb_eq in E2. split; [lia | apply hex_inj; assumption].
  - intros [Hh ->]. rewrite String.eqb_refl.
    replace (h >=? T) with true by lia. reflexivity.
Qed.

(** X7. Once a refund is authorised it stays authorised: at any later
    height, and for any earlier timeout. *)
Theorem refund_stays_authorized secret alice bob out pk h h' T T' :
  T' <= T -> h <= h' ->
  result (validate_bob_refund pk h T (constructed secret alice bob out))
  = Returned true ->
  result (validate_bob_refund pk h' T' (constructed secret alice bob out))
  = Returned true.
Proof.
  intros HT Hh. rewrite !refund_verdict. unfold timeout_elapsed.
  intros E. injection E as E. apply andb_true_iff in E as [E1 E2].
  rewrite E2. replace (h' >=? T') with true by lia. reflexivity.
Qed.

(** The output and result of a claim are determined by what it looks up
    on the object and by what was printed before. *)
Lemma validate_alice_claim_reads ps pk h w w' :
  self_dict w' !! "secret_hash" = self_dict w !! "secret_hash" ->
  self_dict w' !! "alice_pubkey" = self_dict w !! "alice_pubkey" ->
  self_dict w' !! "hash160" = self_dict w !! "hash160" ->
  self_dict w' !! "alice_pubkey_hash" = self_dict w !! "alice_pubkey_hash" ->
  stdout w' = stdout w ->
  result (validate_alice_claim ps pk h w')
  = result (validate_alice_claim ps pk h w)
  /\ stdout (after (validate_alice_claim ps pk h w')) =
     stdout (after (validate_alice_claim ps pk h w)).
Proof.
  intros Es Ek Em Eh Eo.
  unfold validate_alice_claim, self_hash160,
         bind, print, getattr, ret, result, after.
  repeat (cbn [self_dict stdout fst snd]; rewrite ?Es, ?Ek, ?Em, ?Eh, ?Eo;
          match goal with
          | Hk : self_dict w !! ?k = _ |- context [self_dict w !! ?k] =>
              rewrite Hk
          | |- context [match self_dict w !! ?k with _ => _ end] =>
              let E := fresh "E" in destruct (self_dict w !! k) eqn:E
          end);
  cbn [self_dict stdout fst snd]; split; reflexivity.
Qed.

(** X8. Each evaluation reads only its own three, respectively two,
    attributes: a claim is unaffected by the stored raw secret, by Bob's
    attributes and by [current_block]; a refund is unaffected by Alice's
    attributes and by [current_block]. *)
Theorem evaluations_ignore_the_other_attributes
    ps pk h T (w : world) (v1 v2 v3 v4 : value) :
  let wa := {| self_dict :=
                 <["secret" := v1]> (<["bob_pubkey" := v2]>
                 (<["bob_pubkey_hash" := v3]> (<["current_block" := v4]>
                 (self_dict w))));
               stdout := stdout w |} in
  let wb := {| self_dict :=
                 <["alice_pubkey" := v1]> (<["alice_pubkey_hash" := v2]>
                 (<["current_block" := v3]> (self_dict w)));
               stdout := stdout w |} in
  (result (validate_alice_claim ps pk h wa)
   = result (validate_alice_claim ps pk h w)
   /\ stdout (after (validate_alice_claim ps pk h wa))
      = stdout (after (validate_alice_claim ps pk h w)))
  /\ (result (validate_bob_refund pk h T wb)
      = result (validate_bob_refund pk h T w)
      /\ stdout (after (validate_bob_refund pk h T wb))
         = stdout (after (validate_bob_refund pk h T w))).
Proof.
  intros wa wb. split.
  - apply validate_alice_claim_reads;
      subst wa; cbn [self_dict stdout]; by simplify_map_eq.
  - apply validate_bob_refund_reads;
      subst wb; cbn [self_dict stdout]; by simplify_map_eq.
Qed.



(** One call on a constructed simulator: the expected verdict, the same
    simulator, eleven more printed texts making [call_lines] lines. *)
Lemma run_call_constructed s a b out c :
  exists report : list string,
    length report = 11%nat
    /\ count_lines (written report) = call_lines c
    /\ run_call c (constructed s a b out)
       = (Returned (expected s a b c), constructed s a b (out ++ report)).
Proof.
  assert (Ha : fields s a b !! "validate_alice_claim" = None)
    by (unfold fields; by simplify_map_eq).
  assert (Hb : fields s a b !! "validate_bob_refund" = None)
    by (unfold fields; by simplify_map_eq).
  destruct c as [ps pk h | pk h t];
    cbn [run_call expected call_lines]; unfold call_method;
    rewrite constructed_dict, ?Ha, ?Hb.
  - rewrite claim_run. eexists.
    split; [apply alice_report_lines|].
    split; [apply alice_report_lines | reflexivity].
  - rewrite refund_run. eexists.
    split; [apply bob_report_lines|].
    split; [apply bob_report_lines | reflexivity].
Qed.

(** X11. Evaluations are history independent: in any sequence of claims
    and refunds on a constructed simulator no call raises, each call
    returns what it would return on the fresh simulator, and the
    attributes are in the end what the constructor made them. *)
Theorem evaluations_are_history_independent secret alice bob out cs :
  fst (run_calls cs (constructed secret alice bob out))
  = map (fun c => Returned (expected secret alice bob c)) cs
  /\ self_dict (snd (run_calls cs (constructed secret alice bob out)))
     = fields secret alice bob.
Proof.
  revert out. induction cs as [|c cs IH]; intros out; [split; reflexivity|].
  destruct (run_call_constructed secret alice bob out c) as (rep & _ & _ & E).
  cbn [run_calls map]. rewrite E.
  destruct (IH (out ++ rep)%list) as [IH1 IH2].
  destruct (run_calls cs _) as [rs w'']. cbn [fst snd] in *.
  split; [f_equal; exact IH1 | exact IH2].
Qed.

(** X12. Output only grows: a sequence of evaluations on a constructed
    simulator keeps what was printed before and appends eleven printed
    texts per call, which make fifteen lines of text for each claim and
    fourteen for each refund. *)
Theorem evaluations_only_append_output secret alice bob out cs :
  exists more : list string,
    stdout (snd (run_calls cs (constructed secret alice bob out)))
    = (out ++ more)%list
    /\ length more = (11 * length cs)%nat
    /\ count_lines (written more) = list_sum (map call_lines cs).
Proof.
  revert out. induction cs as [|c cs IH]; intros out.
  - exists []. split; [cbn; by rewrite app_nil_r|]. split; reflexivity.
  - destruct (run_call_constructed secret alice bob out c)
      as (rep & Hl & Hc & E).
    cbn [run_calls]. rewrite E.
    destruct (IH (out ++ rep)%list) as (more & IH1 & IH2 & IH3).
    destruct (run_calls cs _) as [rs w'']. cbn [fst snd] in *.
    exists (rep ++ more)%list. split; [|split].
    + rewrite IH1, app_assoc. reflexivity.
    + rewrite length_app, Hl, IH2. cbn [length]. lia.
    + rewrite written_app, count_lines_app, Hc, IH3. reflexivity.
Qed.


End MoreProperties.

(** Rules out that a printed line equals a given marker, by looking at
    one of their first characters. *)
Ltac other_line H :=
  first [ apply (f_equal (String.get 0)) in H; lazy in H; discriminate H
        | apply (f_equal (String.get 1)) in H; lazy in H; discriminate H
        | apply (f_equal (String.get 3)) in H; lazy in H; discriminate H ].

Section Reports.

Context `{Digests}.

(** X14. The printed verdict agrees with the returned value: the report
    of a claim contains the line [✓ CLAIM SUCCESSFUL] exactly when the
    call returns [True] and the line [✗ CLAIM FAILED] exactly when it
    returns [False], whatever the arguments print elsewhere in the
    report; likewise for a refund. *)
Theorem printed_verdict_agrees_with_returned_value
    secret alice bob out ps pk h T :
  (exists report : list string,
     stdout (after (validate_alice_claim ps pk h
                      (constructed secret alice bob out)))
     = (out ++ report)%list
     /\ (In (nl +:+ "✓ CLAIM SUCCESSFUL") report
         <-> result (validate_alice_claim ps pk h
                       (constructed secret alice bob out)) = Returned true)
     /\ (In (nl +:+ "✗ CLAIM FAILED") report
         <-> result (validate_alice_claim ps pk h
                       (constructed secret alice bob out)) = Returned false))
  /\ (exists report : list string,
        stdout (after (validate_bob_refund pk h T
                         (constructed secret alice bob out)))
        = (out ++ report)%list
        /\ (In (nl +:+ "✓ REFUND SUCCESSFUL") report
            <-> result (validate_bob_refund pk h T
                          (constructed secret alice bob out)) = Returned true)
        /\ (In (nl +:+ "✗ REFUND FAILED") report
            <-> result (validate_bob_refund pk h T
                          (constructed secret alice bob out))
                = Returned false)).
Proof.
  split.
  - rewrite claim_run. unfold result, after; cbn [fst snd stdout].
    eexists. split; [reflexivity|].
    unfold alice_report, secret_match, identity_match, secret_commitment.
    cbn [py_eq In].
    destruct (_ && _); split; split;
      try (intros _; reflexivity); try discriminate;
      try (intros _; do 9 right; left; reflexivity);
      intros Hin; repeat (destruct Hin as [Hin|Hin]; [other_line Hin|]);
      destruct Hin.
  - rewrite refund_run. unfold result, after; cbn [fst snd stdout].
    eexists. split; [reflexivity|].
    unfold bob_report, timeout_elapsed, identity_match.
    cbn [py_eq In].
    destruct (_ && _); split; split;
      try (intros _; reflexivity); try discriminate;
      try (intros _; do 9 right; left; reflexivity);
      intros Hin; repeat (destruct Hin as [Hin|Hin]; [other_line Hin|]);
      destruct Hin.
Qed.

(** X15. Two simulators get the same locking script exactly when their
    three digests and their timeouts agree. *)
Theorem locking_script_eq_iff s a b T s' a' b' T' :
  locking_script s a b T = locking_script s' a' b' T'
  <-> sha256_digest (encode s) = sha256_digest (encode s')
      /\ ripemd160_digest (sha256_digest (encode a))
         = ripemd160_digest (sha256_digest (encode a'))
      /\ ripemd160_digest (sha256_digest (encode b))
         = ripemd160_digest (sha256_digest (encode b'))
      /\ T = T'.
Proof.
  unfold locking_script.
  rewrite !secret_commitment_unfold, !hash160_unfold. split.
  - intros E.
    apply htlc_script_fields in E; try apply no_closing_bracket_hex.
    destruct E as (E1 & E2 & E3 & ->).
    repeat split; apply hex_inj; assumption.
  - intros (-> & -> & -> & ->). reflexivity.
Qed.

End Reports.

Lemma refund_stays_authorized_witness :
  result (@validate_bob_refund openssl "bob_key" 25 15 test_sim)
  = Returned true.
Proof.
  apply (@refund_stays_authorized openssl
           "test_secret_123" "alice_key" "bob_key" [] "bob_key" 21 25 21 15).
  - lia.
  - lia.
  - vm_compute. reflexivity.
Defined.
